(** * tasks/pipeline.py: the [trigger] and [follow] invoke tasks

    The two tasks are thin command handlers: they call the CI client
    ([trigger_agent_pipeline], [wait_for_pipeline], [Gitlab().pipelines_for_ref]),
    the invoke context ([ctx.run]) and [print].  None of these collaborators
    is defined in tasks/pipeline.py, so a handler is embedded as a finite
    interaction tree over the calls it makes, and run against an arbitrary
    oracle that answers each call with a value or with an exception.  What
    is proved is what the handlers themselves decide: which calls are made,
    in which order, with which arguments, what is printed and which
    exception reaches the caller. *)

From Stdlib Require Import ZArith NArith Ascii String List Bool.
From stdpp Require Import base gmap.

Local Open Scope N_scope.

(** ** Python values *)

Module Py.

(** A [str] is a sequence of Unicode code points. *)
Definition pystr : Type := list N.

(** A string literal of the source (all of them are ASCII). *)
Definition lit (s : string) : pystr := map N_of_ascii (list_ascii_of_string s).

(** The values that reach the handlers: command line arguments are
    [None], booleans and strings; pipeline identifiers are integers. *)
Inductive pyval : Type :=
| VNone
| VBool (b : bool)
| VInt (n : Z)
| VStr (s : pystr).

(** Truth value testing, as [if x:] does it. *)
Definition truthy (v : pyval) : bool :=
  match v with
  | VNone => false
  | VBool b => b
  | VInt n => negb (Z.eqb n 0)
  | VStr s => match s with [] => false | _ :: _ => true end
  end.

(** Exceptions.  [IndexError], [KeyError] and [ValueError] are the ones
    the builtins used by the handlers raise; [Failure] stands for
    whatever a collaborator raises. *)
Inductive exn : Type :=
| IndexError
| KeyError (key : pystr)
| ValueError
| Failure (what : pystr).

Definition outcome (A : Type) : Type := exn + A.

(** [str.isspace] on one code point (the whitespace table of CPython). *)
Definition isspace (c : N) : bool :=
  (N.leb 9 c && N.leb c 13) || (N.leb 28 c && N.leb c 32)
  || N.eqb c 133 || N.eqb c 160 || N.eqb c 5760
  || (N.leb 8192 c && N.leb c 8202)
  || N.eqb c 8232 || N.eqb c 8233 || N.eqb c 8239 || N.eqb c 8287
  || N.eqb c 12288.

Fixpoint lstrip (s : pystr) : pystr :=
  match s with
  | [] => []
  | c :: s' => if isspace c then lstrip s' else s
  end.

Definition rstrip (s : pystr) : pystr := rev (lstrip (rev s)).

(** [s.strip()] *)
Definition strip (s : pystr) : pystr := rstrip (lstrip s).

(** [l[i]] on a list, negative indices counted from the end. *)
Definition list_getitem {A : Type} (l : list A) (i : Z) : outcome A :=
  let n := Z.of_nat (length l) in
  let j := if Z.ltb i 0 then Z.add i n else i in
  if Z.ltb j 0 then inl IndexError
  else match nth_error l (Z.to_nat j) with
       | Some x => inr x
       | None => inl IndexError
       end.

(** [d[k]] on a dict with string keys. *)
Definition dict_getitem {A : Type} (d : gmap pystr A) (k : pystr) : outcome A :=
  match d !! k with
  | Some x => inr x
  | None => inl (KeyError k)
  end.

(** [template.format] with keyword arguments, for templates whose replacement fields
    are plain names, [{name}], and whose arguments are strings.  [field]
    is [Some f] while a field is being read, [f] holding its name so far
    in reverse.  Brace escapes, conversions and format specifications are
    not modelled; the template of the source uses none. *)
Fixpoint format_from (field : option pystr) (kwargs : gmap pystr pystr)
    (template : pystr) : outcome pystr :=
  match template with
  | [] => match field with
          | None => inr []
          | Some _ => inl ValueError
          end
  | c :: rest =>
    match field with
    | None =>
      if N.eqb c 123 then format_from (Some []) kwargs rest
      else if N.eqb c 125 then inl ValueError
      else match format_from None kwargs rest with
           | inr out => inr (c :: out)
           | inl e => inl e
           end
    | Some f =>
      if N.eqb c 125 then
        match kwargs !! rev f with
        | Some v => match format_from None kwargs rest with
                    | inr out => inr (v ++ out)
                    | inl e => inl e
                    end
        | None => inl (KeyError (rev f))
        end
      else format_from (Some (c :: f)) kwargs rest
    end
  end.

Definition format (template : pystr) (kwargs : gmap pystr pystr) : outcome pystr :=
  format_from None kwargs template.

End Py.

Import Py.

(** ** Collaborators *)

(** A [Gitlab] client object (its identity). *)
Definition gitlab : Type := N.

(** A pipeline record as the client returns it: a dict. *)
Definition record : Type := gmap pystr pyval.

(** What [ctx.run] returns; only [stdout] is read. *)
Record Result : Type := { stdout : pystr }.

(** The calls a handler makes to code outside tasks/pipeline.py. *)
Inductive call : Type :=
| trigger_agent_pipeline
    (ref release_version_6 release_version_7 repo_branch windows_update_latest : pyval)
| wait_for_pipeline (pipeline_id : pyval)
| Gitlab
| pipelines_for_ref (self : gitlab) (project ref : pyval)
| ctx_run (command : pystr) (hide : bool).

(** The type of what each call returns. *)
Definition answer (c : call) : Type :=
  match c with
  | trigger_agent_pipeline _ _ _ _ _ => pyval
  | wait_for_pipeline _ => pyval
  | Gitlab => gitlab
  | pipelines_for_ref _ _ _ => list record
  | ctx_run _ _ => Result
  end.

(** ** Handlers as interaction trees *)

Inductive prog (A : Type) : Type :=
| Ret (a : A)
| Raise (e : exn)
| Do (c : call) (k : answer c -> prog A)
| Print (s : pystr) (k : prog A).

Arguments Ret {A} a.
Arguments Raise {A} e.
Arguments Do {A} c k.
Arguments Print {A} s k.

Fixpoint bind {A B : Type} (p : prog A) (f : A -> prog B) : prog B :=
  match p with
  | Ret a => f a
  | Raise e => Raise e
  | Do c k => Do c (fun r => bind (k r) f)
  | Print s k => Print s (bind k f)
  end.

Definition perform (c : call) : prog (answer c) := Do c Ret.

(** [print(s)]: the text goes out and the call returns [None]. *)
Definition print (s : pystr) : prog unit := Print s (Ret tt).

(** A builtin that returns or raises. *)
Definition lift {A : Type} (r : outcome A) : prog A :=
  match r with
  | inr a => Ret a
  | inl e => Raise e
  end.

Declare Scope prog_scope.
Delimit Scope prog_scope with prog.
Notation "x <- p ;; q" := (bind p (fun x => q))
  (at level 100, p at next level, right associativity) : prog_scope.
Notation "p ;; q" := (bind p (fun _ => q))
  (at level 100, right associativity) : prog_scope.

(** What an observer of a run sees, in order. *)
Inductive event : Type :=
| Called (c : call)
| Printed (s : pystr).

(** The outside world: given the events so far, the answer to the next
    call.  Any deterministic behaviour of the collaborators, stateful or
    not, is such a function. *)
Definition oracle : Type := list event -> forall c : call, outcome (answer c).

(** [run o h p]: the events [p] produces after history [h], and how it ends. *)
Fixpoint run {A : Type} (o : oracle) (h : list event) (p : prog A)
    : list event * outcome A :=
  match p with
  | Ret a => ([], inr a)
  | Raise e => ([], inl e)
  | Do c k =>
    match o h c with
    | inl e => ([Called c], inl e)
    | inr r => let (t, out) := run o (h ++ [Called c]) (k r) in (Called c :: t, out)
    end
  | Print s k =>
    let (t, out) := run o (h ++ [Printed s]) k in (Printed s :: t, out)
  end.

Definition trace {A : Type} (o : oracle) (h : list event) (p : prog A) : list event :=
  fst (run o h p).

Definition result {A : Type} (o : oracle) (h : list event) (p : prog A) : outcome A :=
  snd (run o h p).

(** ** tasks/pipeline.py

    The [ctx] argument of a task is the invoke context of the run; its
    only use, [ctx.run], is a call to the outside like the others. *)

(** A keyword argument: the value given, or the default of the signature. *)
Definition kwarg (given : option pyval) (default : pyval) : pyval :=
  match given with
  | Some v => v
  | None => default
  end.

Local Open Scope prog_scope.

Definition trigger
    (ref release_version_6 release_version_7 repo_branch windows_update_latest : option pyval)
    : prog unit :=
  let ref := kwarg ref (VStr (lit "master")) in
  let release_version_6 := kwarg release_version_6 (VStr (lit "nightly")) in
  let release_version_7 := kwarg release_version_7 (VStr (lit "nightly-a7")) in
  let repo_branch := kwarg repo_branch (VStr (lit "nightly")) in
  let windows_update_latest := kwarg windows_update_latest (VBool true) in
  pipeline_id <- perform (trigger_agent_pipeline ref release_version_6 release_version_7
                            repo_branch windows_update_latest) ;;
  perform (wait_for_pipeline pipeline_id) ;;
  Ret tt.

Definition follow (id ref here : option pyval) : prog unit :=
  let id := kwarg id VNone in
  let ref := kwarg ref VNone in
  let here := kwarg here (VBool false) in
  if truthy id then
    perform (wait_for_pipeline id) ;;
    Ret tt
  else if truthy ref then
    g <- perform Gitlab ;;
    pipelines <- perform (pipelines_for_ref g (VStr (lit "DataDog/datadog-agent")) ref) ;;
    first <- lift (list_getitem pipelines 0) ;;
    pipeline_id <- lift (dict_getitem first (lit "id")) ;;
    perform (wait_for_pipeline pipeline_id) ;;
    Ret tt
  else if truthy here then
    res <- perform (ctx_run (lit "git rev-parse --abbrev-ref HEAD") true) ;;
    let ref := strip (stdout res) in
    g <- perform Gitlab ;;
    pipelines <- perform (pipelines_for_ref g (VStr (lit "DataDog/datadog-agent")) (VStr ref)) ;;
    if Nat.ltb 0 (length pipelines) then
      first <- lift (list_getitem pipelines 0) ;;
      pipeline_id <- lift (dict_getitem first (lit "id")) ;;
      perform (wait_for_pipeline pipeline_id) ;;
      Ret tt
    else
      msg <- lift (format (lit "No pipelines found for {ref}") {[ lit "ref" := ref ]}) ;;
      print msg
  else Ret tt.

Local Close Scope prog_scope.

(** ** Reading a trace *)

Definition is_wait (e : event) : bool :=
  match e with
  | Called (wait_for_pipeline _) => true
  | _ => false
  end.

(** A pipeline lookup: building the client or asking it for pipelines. *)
Definition is_lookup (e : event) : bool :=
  match e with
  | Called Gitlab => true
  | Called (pipelines_for_ref _ _ _) => true
  | _ => false
  end.

(** A version-control query: any command run through the context. *)
Definition is_vcs_query (e : event) : bool :=
  match e with
  | Called (ctx_run _ _) => true
  | _ => false
  end.

Definition is_print (e : event) : bool :=
  match e with
  | Printed _ => true
  | _ => false
  end.

(** ** The calls of the handlers, by name *)

(** The start-pipeline call [trigger] makes for the arguments given. *)
Definition start_call
    (ref release_version_6 release_version_7 repo_branch windows_update_latest : option pyval)
    : call :=
  trigger_agent_pipeline
    (kwarg ref (VStr (lit "master")))
    (kwarg release_version_6 (VStr (lit "nightly")))
    (kwarg release_version_7 (VStr (lit "nightly-a7")))
    (kwarg repo_branch (VStr (lit "nightly")))
    (kwarg windows_update_latest (VBool true)).

(** The project every lookup of [follow] is made for. *)
Definition project : pyval := VStr (lit "DataDog/datadog-agent").

(** The version-control query of [follow]. *)
Definition git_branch : call := ctx_run (lit "git rev-parse --abbrev-ref HEAD") true.

(** How a handler ends after its last call, a wait: with the exception
    of the wait, or returning [None]. *)
Definition ending (r : outcome pyval) : outcome unit :=
  match r with
  | inl e => inl e
  | inr _ => inr tt
  end.

(** ** Two concrete worlds *)

(** Everything works: pipeline 42 is started, the checkout prints
    [branch], the client knows [pipelines]. *)
Definition ci_up (branch : pystr) (pipelines : list record) : oracle :=
  fun _ c =>
    match c return outcome (answer c) with
    | trigger_agent_pipeline _ _ _ _ _ => inr (VInt 42)
    | wait_for_pipeline _ => inr VNone
    | Gitlab => inr 0
    | pipelines_for_ref _ _ _ => inr pipelines
    | ctx_run _ _ => inr {| stdout := branch |}
    end.

(** Nothing works: every call raises. *)
Definition ci_down : oracle :=
  fun _ c => inl (Failure (lit "503 Service Unavailable")).

Definition pipeline_7 : record := {[ lit "id" := VInt 7 ]}.

(** A world like [ci_up] in which the calls picked by [bad] raise. *)
Definition ci_failing (bad : event -> bool) (branch : pystr) (pipelines : list record)
    : oracle :=
  fun h c =>
    if bad (Called c) then inl (Failure (lit "503 Service Unavailable"))
    else ci_up branch pipelines h c.

(** A start-pipeline call. *)
Definition is_start (e : event) : bool :=
  match e with
  | Called (trigger_agent_pipeline _ _ _ _ _) => true
  | _ => false
  end.

(** The last thing a handler can do for its user: wait, or report. *)
Definition is_final (e : event) : bool := is_wait e || is_print e.

(** ** The builtins *)

Section Builtins.

Lemma lstrip_head (s : pystr) (c : N) (s' : pystr) :
  lstrip s = c :: s' -> isspace c = false.
Proof.
  induction s as [|a s IH]; simpl; [discriminate|].
  destruct (isspace a) eqn:Ha; [exact IH|].
  intros E. injection E as <- _. exact Ha.
Qed.

Lemma lstrip_fixed (s : pystr) : lstrip (lstrip s) = lstrip s.
Proof.
  destruct (lstrip s) as [|c s'] eqn:E; [reflexivity|].
  simpl. now rewrite (lstrip_head _ _ _ E).
Qed.

Lemma lstrip_spaces (ws s : pystr) :
  forallb isspace ws = true -> lstrip (ws ++ s) = lstrip s.
Proof.
  induction ws as [|c ws IH]; simpl; [reflexivity|].
  intros H. apply andb_prop in H as [-> H]. auto.
Qed.

Lemma lstrip_keeps (s : pystr) :
  (forall c s', s = c :: s' -> isspace c = false) -> lstrip s = s.
Proof.
  destruct s as [|c s]; simpl; [reflexivity|].
  intros H. now rewrite (H c s eq_refl).
Qed.

Lemma rstrip_spaces (s ws : pystr) :
  forallb isspace ws = true -> rstrip (s ++ ws) = rstrip s.
Proof.
  intros H. unfold rstrip. rewrite rev_app_distr, lstrip_spaces; [reflexivity|].
  rewrite forallb_forall in *. intros c Hc. apply H. now apply in_rev.
Qed.

(** What [lstrip] removes is a prefix. *)
Lemma lstrip_suffix (s : pystr) : exists p, s = p ++ lstrip s.
Proof.
  induction s as [|c s [p IH]]; simpl; [now exists []|].
  destruct (isspace c); [|now exists []].
  exists (c :: p). simpl. now rewrite <- IH.
Qed.

(** Stripping a stripped string changes nothing. *)
Lemma strip_fixed (s : pystr) : strip (strip s) = strip s.
Proof.
  unfold strip, rstrip.
  set (u := lstrip s). set (w := lstrip (rev u)).
  assert (Hw : lstrip (rev w) = rev w).
  { apply lstrip_keeps. intros a q Eq.
    destruct (lstrip_suffix (rev u)) as [p Hp]. fold w in Hp.
    apply (f_equal (@rev N)) in Hp.
    rewrite rev_involutive, rev_app_distr, Eq in Hp.
    exact (lstrip_head s a (q ++ rev p) Hp). }
  rewrite Hw, rev_involutive. unfold w. now rewrite lstrip_fixed.
Qed.

(** A line of output whose text has no whitespace at either end is
    stripped to that text: the newline goes, the rest stays. *)
Lemma strip_line (c : N) (mid : pystr) (d : N) (ws : pystr) :
  isspace c = false -> isspace d = false -> forallb isspace ws = true ->
  strip ((c :: mid ++ [d]) ++ ws) = c :: mid ++ [d].
Proof.
  intros Hc Hd Hws. unfold strip.
  rewrite (lstrip_keeps ((c :: mid ++ [d]) ++ ws)).
  - rewrite rstrip_spaces by exact Hws. unfold rstrip.
    rewrite (lstrip_keeps (rev (c :: mid ++ [d]))); [apply rev_involutive|].
    intros a q Eq. change (c :: mid ++ [d]) with ((c :: mid) ++ [d]) in Eq.
    rewrite rev_app_distr in Eq. simpl in Eq. now injection Eq as <- _.
  - intros a q Eq. simpl in Eq. now injection Eq as <- _.
Qed.

Lemma format_from_plain (kwargs : gmap pystr pystr) (s : pystr) :
  forallb (fun c => negb (N.eqb c 123) && negb (N.eqb c 125)) s = true ->
  forall rest,
    format_from None kwargs (s ++ rest)
    = match format_from None kwargs rest with
      | inr out => inr (s ++ out)
      | inl e => inl e
      end.
Proof.
  induction s as [|c s IH]; simpl; intros H rest.
  - now destruct (format_from None kwargs rest).
  - apply andb_prop in H as [Hc H]. apply andb_prop in Hc as [H1 H2].
    apply negb_true_iff in H1, H2. rewrite H1, H2, (IH H rest).
    now destruct (format_from None kwargs rest).
Qed.

(** The message of [follow]: the template with [ref] filled in. *)
Lemma format_no_pipelines (ref : pystr) :
  format (lit "No pipelines found for {ref}") {[ lit "ref" := ref ]}
  = inr (lit "No pipelines found for " ++ ref).
Proof.
  unfold format.
  change (lit "No pipelines found for {ref}")
    with (lit "No pipelines found for " ++ lit "{ref}").
  rewrite format_from_plain by reflexivity.
  change (format_from None {[lit "ref" := ref]} (lit "{ref}"))
    with (match ({[lit "ref" := ref]} : gmap pystr pystr) !! lit "ref" with
          | Some v => inr (v ++ [])
          | None => inl (KeyError (lit "ref"))
          end : outcome pystr).
  rewrite lookup_singleton_eq, app_nil_r. reflexivity.
Qed.

Lemma list_getitem_first {A : Type} (x : A) (l : list A) :
  list_getitem (x :: l) 0 = inr x.
Proof. reflexivity. Qed.

Lemma list_getitem_empty {A : Type} (i : Z) : list_getitem (@nil A) i = inl IndexError.
Proof.
  unfold list_getitem. cbv zeta.
  destruct (Z.ltb _ 0); [reflexivity|].
  now destruct (Z.to_nat _).
Qed.

Lemma dict_getitem_some {A : Type} (d : gmap pystr A) (k : pystr) (x : A) :
  d !! k = Some x -> dict_getitem d k = inr x.
Proof. intros H. unfold dict_getitem. now rewrite H. Qed.

End Builtins.

(** ** Running a handler *)

Section Run.

Context {A B : Type}.

Lemma bind_ret_l (a : A) (f : A -> prog B) : bind (Ret a) f = f a.
Proof. reflexivity. Qed.

Lemma bind_raise (e : exn) (f : A -> prog B) : bind (Raise e) f = Raise e.
Proof. reflexivity. Qed.

(** A sequence runs its first part, and its second part after the
    events of the first, unless the first part raised. *)
Lemma run_bind (o : oracle) (p : prog A) (f : A -> prog B) (h : list event) :
  run o h (bind p f)
  = match run o h p with
    | (t, inr a) => let (t', out) := run o (h ++ t) (f a) in (t ++ t', out)
    | (t, inl e) => (t, inl e)
    end.
Proof.
  revert h. induction p as [a|e|c k IH|s k IH]; intros h; simpl.
  - rewrite app_nil_r. now destruct (run o h (f a)).
  - reflexivity.
  - destruct (o h c) as [e|r]; [reflexivity|].
    rewrite IH. destruct (run o (h ++ [Called c]) (k r)) as [t [e|a]]; [reflexivity|].
    rewrite <- app_assoc. simpl.
    now destruct (run o (h ++ Called c :: t) (f a)).
  - rewrite IH. destruct (run o (h ++ [Printed s]) k) as [t [e|a]]; [reflexivity|].
    rewrite <- app_assoc. simpl.
    now destruct (run o (h ++ Printed s :: t) (f a)).
Qed.

End Run.

(** One call: the event is recorded whether the call returns or raises,
    and its answer or its exception is the outcome. *)
Lemma run_perform (o : oracle) (h : list event) (c : call) :
  run o h (perform c)
  = match o h c with
    | inl e => ([Called c], inl e)
    | inr r => ([Called c], inr r)
    end.
Proof. unfold perform. simpl. now destruct (o h c). Qed.

Arguments lit : simpl never.
Arguments strip : simpl never.
Arguments format : simpl never.

(** ** [trigger] *)

Section Trigger.

Variables (o : oracle) (h : list event).
Variables ref release_version_6 release_version_7 repo_branch
          windows_update_latest : option pyval.

Abbreviation start :=
  (start_call ref release_version_6 release_version_7 repo_branch windows_update_latest).
Abbreviation task :=
  (trigger ref release_version_6 release_version_7 repo_branch windows_update_latest).

(** The whole behaviour of [trigger], by the answers it gets. *)
Lemma run_trigger :
  run o h task
  = match o h start with
    | inl e => ([Called start], inl e)
    | inr pipeline_id =>
      ([Called start; Called (wait_for_pipeline pipeline_id)],
       ending (o (h ++ [Called start]) (wait_for_pipeline pipeline_id)))
    end.
Proof.
  unfold trigger. fold start. simpl.
  destruct (o h start) as [e|pid]; [reflexivity|].
  now destruct (o (h ++ [Called start]) (wait_for_pipeline pid)).
Qed.

(** C7: whatever the arguments, [trigger] makes no pipeline lookup and
    no version-control query, and when start-pipeline returns an
    identifier its calls are exactly two: start-pipeline, then
    wait-for-pipeline on that identifier. *)
Theorem trigger_two_calls :
  (existsb is_lookup (trace o h task) = false
   /\ existsb is_vcs_query (trace o h task) = false)
  /\ forall pipeline_id : pyval,
       o h start = inr pipeline_id ->
       trace o h task = [Called start; Called (wait_for_pipeline pipeline_id)].
Proof.
  unfold trace. rewrite run_trigger. split.
  - now destruct (o h start).
  - intros pid Hpid. now rewrite Hpid.
Qed.

(** C8: when start-pipeline raises, [trigger] ends with that very
    exception, and the only call made is the start-pipeline one: there is
    no wait. *)
Theorem trigger_failure_propagates (e : exn) :
  o h start = inl e ->
  run o h task = ([Called start], inl e)
  /\ existsb is_wait (trace o h task) = false.
Proof.
  intros He. unfold trace. rewrite run_trigger, He. now split.
Qed.

End Trigger.

(** C2: with every argument left at its default, [trigger] calls
    start-pipeline once, with ("master", "nightly", "nightly-a7",
    "nightly", True), and then wait-for-pipeline on the identifier that
    call returned. *)
Theorem trigger_defaults (o : oracle) (h : list event) (pipeline_id : pyval) :
  let start :=
    trigger_agent_pipeline (VStr (lit "master")) (VStr (lit "nightly"))
      (VStr (lit "nightly-a7")) (VStr (lit "nightly")) (VBool true) in
  o h start = inr pipeline_id ->
  trace o h (trigger None None None None None)
  = [Called start; Called (wait_for_pipeline pipeline_id)].
Proof.
  intros start Hpid. unfold trace.
  rewrite (run_trigger o h None None None None None).
  change (start_call None None None None None) with start. now rewrite Hpid.
Qed.

(** ** [follow] *)

Section Follow.

Variables (o : oracle) (h : list event).

(** The [id] branch. *)
Lemma run_follow_id (id ref here : option pyval) :
  truthy (kwarg id VNone) = true ->
  run o h (follow id ref here)
  = ([Called (wait_for_pipeline (kwarg id VNone))],
     ending (o h (wait_for_pipeline (kwarg id VNone)))).
Proof.
  intros Hid. unfold follow. rewrite Hid. simpl.
  now destruct (o h (wait_for_pipeline (kwarg id VNone))).
Qed.

(** The [ref] branch. *)
Lemma run_follow_ref (id ref here : option pyval) :
  truthy (kwarg id VNone) = false ->
  truthy (kwarg ref VNone) = true ->
  run o h (follow id ref here)
  = match o h Gitlab with
    | inl e => ([Called Gitlab], inl e)
    | inr g =>
      let lookup := pipelines_for_ref g project (kwarg ref VNone) in
      match o (h ++ [Called Gitlab]) lookup with
      | inl e => ([Called Gitlab; Called lookup], inl e)
      | inr pipelines =>
        match list_getitem pipelines 0 with
        | inl e => ([Called Gitlab; Called lookup], inl e)
        | inr first =>
          match dict_getitem first (lit "id") with
          | inl e => ([Called Gitlab; Called lookup], inl e)
          | inr pipeline_id =>
            ([Called Gitlab; Called lookup; Called (wait_for_pipeline pipeline_id)],
             ending (o ((h ++ [Called Gitlab]) ++ [Called lookup])
                       (wait_for_pipeline pipeline_id)))
          end
        end
      end
    end.
Proof.
  intros Hid Href. unfold follow. rewrite Hid, Href. fold project. simpl.
  destruct (o h Gitlab) as [e|g]; [reflexivity|].
  destruct (o (h ++ [Called Gitlab]) _) as [e|pipelines]; [reflexivity|].
  destruct (list_getitem pipelines 0) as [e|first]; [reflexivity|]. simpl.
  destruct (dict_getitem first (lit "id")) as [e|pid]; [reflexivity|]. simpl.
  now destruct (o _ (wait_for_pipeline pid)).
Qed.

(** The [here] branch. *)
Lemma run_follow_here (id ref here : option pyval) :
  truthy (kwarg id VNone) = false ->
  truthy (kwarg ref VNone) = false ->
  truthy (kwarg here (VBool false)) = true ->
  run o h (follow id ref here)
  = match o h git_branch with
    | inl e => ([Called git_branch], inl e)
    | inr res =>
      let ref := strip (stdout res) in
      match o (h ++ [Called git_branch]) Gitlab with
      | inl e => ([Called git_branch; Called Gitlab], inl e)
      | inr g =>
        let lookup := pipelines_for_ref g project (VStr ref) in
        let asked := [Called git_branch; Called Gitlab; Called lookup] in
        match o ((h ++ [Called git_branch]) ++ [Called Gitlab]) lookup with
        | inl e => (asked, inl e)
        | inr [] => (asked ++ [Printed (lit "No pipelines found for " ++ ref)], inr tt)
        | inr (first :: _) =>
          match dict_getitem first (lit "id") with
          | inl e => (asked, inl e)
          | inr pipeline_id =>
            (asked ++ [Called (wait_for_pipeline pipeline_id)],
             ending (o (h ++ asked) (wait_for_pipeline pipeline_id)))
          end
        end
      end
    end.
Proof.
  intros Hid Href Hhere. unfold follow. rewrite Hid, Href, Hhere.
  fold project git_branch. simpl.
  destruct (o h git_branch) as [e|res]; [reflexivity|].
  destruct (o (h ++ [Called git_branch]) Gitlab) as [e|g]; [reflexivity|].
  destruct (o _ (pipelines_for_ref g project (VStr (strip (stdout res)))))
    as [e|[|first rest]] eqn:E; [reflexivity| |].
  - simpl. now rewrite format_no_pipelines.
  - simpl. unfold list_getitem. simpl.
    destruct (dict_getitem first (lit "id")) as [e|pid]; [reflexivity|]. simpl.
    rewrite <- !app_assoc. simpl.
    now destruct (o _ (wait_for_pipeline pid)).
Qed.

(** Neither branch taken. *)
Lemma run_follow_none (id ref here : option pyval) :
  truthy (kwarg id VNone) = false ->
  truthy (kwarg ref VNone) = false ->
  truthy (kwarg here (VBool false)) = false ->
  run o h (follow id ref here) = ([], inr tt).
Proof. intros Hid Href Hhere. unfold follow. now rewrite Hid, Href, Hhere. Qed.

End Follow.

(** C4: with a truthy [id], [follow] waits on exactly that [id] and does
    nothing else: no pipeline lookup and no version-control query,
    whatever [ref] and [here] are. *)
Theorem follow_id_waits_only (o : oracle) (h : list event)
    (id : pyval) (ref here : option pyval) :
  truthy id = true ->
  trace o h (follow (Some id) ref here) = [Called (wait_for_pipeline id)]
  /\ existsb is_lookup (trace o h (follow (Some id) ref here)) = false
  /\ existsb is_vcs_query (trace o h (follow (Some id) ref here)) = false.
Proof.
  intros Hid. unfold trace.
  rewrite (run_follow_id o h (Some id) ref here Hid). simpl. auto.
Qed.

(** C3: with [id] absent and a truthy [ref], once the client is built
    [follow] asks it for the pipelines of ("DataDog/datadog-agent", ref);
    when the answer has a first record and that record has an 'id', the
    next and last call is wait-for-pipeline on that 'id'. *)
Theorem follow_ref_waits_on_first (o : oracle) (h : list event)
    (ref : pyval) (here : option pyval) (g : gitlab) :
  let lookup := pipelines_for_ref g (VStr (lit "DataDog/datadog-agent")) ref in
  truthy ref = true ->
  o h Gitlab = inr g ->
  firstn 2 (trace o h (follow None (Some ref) here)) = [Called Gitlab; Called lookup]
  /\ forall (first : record) (rest : list record) (pipeline_id : pyval),
       o (h ++ [Called Gitlab]) lookup = inr (first :: rest) ->
       first !! lit "id" = Some pipeline_id ->
       trace o h (follow None (Some ref) here)
       = [Called Gitlab; Called lookup; Called (wait_for_pipeline pipeline_id)].
Proof.
  intros lookup Href Hg. unfold trace.
  rewrite (run_follow_ref o h None (Some ref) here eq_refl Href), Hg.
  unfold project. cbv zeta. simpl kwarg. fold lookup. split.
  - destruct (o (h ++ [Called Gitlab]) lookup) as [e|pipelines]; [reflexivity|].
    destruct (list_getitem pipelines 0) as [e|first]; [reflexivity|].
    now destruct (dict_getitem first (lit "id")).
  - intros first rest pid Hl Hpid. rewrite Hl.
    now rewrite list_getitem_first, (dict_getitem_some first (lit "id") pid Hpid).
Qed.

(** With a truthy [ref] and no pipeline for it, [follow] raises
    [IndexError] after the lookup: nothing is printed. *)
Lemma follow_ref_empty_raises (o : oracle) (h : list event)
    (ref : pyval) (here : option pyval) (g : gitlab) :
  let lookup := pipelines_for_ref g (VStr (lit "DataDog/datadog-agent")) ref in
  truthy ref = true ->
  o h Gitlab = inr g ->
  o (h ++ [Called Gitlab]) lookup = inr [] ->
  run o h (follow None (Some ref) here)
  = ([Called Gitlab; Called lookup], inl IndexError).
Proof.
  intros lookup Href Hg Hl.
  rewrite (run_follow_ref o h None (Some ref) here eq_refl Href), Hg.
  unfold project. cbv zeta. simpl kwarg. fold lookup. now rewrite Hl.
Qed.

(** C1, at [follow(ctx, ref="foo")] when the client has no pipeline for
    "foo": the run ends in [IndexError], raised by the subscript [[0]]
    of line 28, and prints nothing. *)
Theorem follow_ref_no_pipelines_raises :
  run (ci_up (lit "main") []) [] (follow None (Some (VStr (lit "foo"))) None)
  = ([Called Gitlab;
      Called (pipelines_for_ref 0 (VStr (lit "DataDog/datadog-agent")) (VStr (lit "foo")))],
     inl IndexError)
  /\ existsb is_print
       (trace (ci_up (lit "main") []) [] (follow None (Some (VStr (lit "foo"))) None))
     = false.
Proof.
  unfold trace.
  rewrite (follow_ref_empty_raises (ci_up (lit "main") []) [] (VStr (lit "foo")) None 0);
    [split| | |]; reflexivity.
Qed.

(** C5: with [here=True], [id] and [ref] absent, and no pipeline for the
    ref read from the checkout, [follow] prints "No pipelines found for "
    followed by that ref, returns normally and never waits. *)
Theorem follow_here_no_pipelines (o : oracle) (h : list event)
    (res : Result) (g : gitlab) :
  let query := ctx_run (lit "git rev-parse --abbrev-ref HEAD") true in
  let ref := strip (stdout res) in
  let lookup := pipelines_for_ref g (VStr (lit "DataDog/datadog-agent")) (VStr ref) in
  o h query = inr res ->
  o (h ++ [Called query]) Gitlab = inr g ->
  o ((h ++ [Called query]) ++ [Called Gitlab]) lookup = inr [] ->
  run o h (follow None None (Some (VBool true)))
  = ([Called query; Called Gitlab; Called lookup;
      Printed (lit "No pipelines found for " ++ ref)],
     inr tt)
  /\ existsb is_wait (trace o h (follow None None (Some (VBool true)))) = false.
Proof.
  intros query ref lookup Hgit Hg Hl. unfold trace.
  rewrite (run_follow_here o h None None (Some (VBool true)) eq_refl eq_refl eq_refl).
  unfold git_branch, project. fold query. rewrite Hgit. cbv zeta. rewrite Hg. fold ref lookup.
  rewrite Hl. now split.
Qed.

(** C6: with [here=True], [id] and [ref] absent, the first call of
    [follow] is the query [git rev-parse --abbrev-ref HEAD] (output
    hidden); the lookup that follows is made for
    "DataDog/datadog-agent" and the stripped standard output of that
    query. *)
Theorem follow_here_asks_git (o : oracle) (h : list event) :
  let query := ctx_run (lit "git rev-parse --abbrev-ref HEAD") true in
  hd_error (trace o h (follow None None (Some (VBool true)))) = Some (Called query)
  /\ forall (res : Result) (g : gitlab),
       o h query = inr res ->
       o (h ++ [Called query]) Gitlab = inr g ->
       firstn 3 (trace o h (follow None None (Some (VBool true))))
       = [Called query; Called Gitlab;
          Called (pipelines_for_ref g (VStr (lit "DataDog/datadog-agent"))
                    (VStr (strip (stdout res))))].
Proof.
  intros query. unfold trace.
  rewrite (run_follow_here o h None None (Some (VBool true)) eq_refl eq_refl eq_refl).
  unfold git_branch, project. fold query. split.
  - destruct (o h query) as [e|res]; [reflexivity|]. cbv zeta.
    destruct (o (h ++ [Called query]) Gitlab) as [e|g]; [reflexivity|].
    destruct (o _ (pipelines_for_ref g _ _)) as [e|[|first rest]];
      [reflexivity|reflexivity|].
    now destruct (dict_getitem first (lit "id")).
  - intros res g Hgit Hg. rewrite Hgit. cbv zeta. rewrite Hg.
    destruct (o _ (pipelines_for_ref g _ _)) as [e|[|first rest]];
      [reflexivity|reflexivity|].
    now destruct (dict_getitem first (lit "id")).
Qed.

(** C9: with [id] absent or falsy, [ref] absent or falsy and [here]
    False, [follow] makes no call, prints nothing and returns. *)
Theorem follow_noop (o : oracle) (h : list event) (id ref here : option pyval) :
  truthy (kwarg id VNone) = false ->
  truthy (kwarg ref VNone) = false ->
  kwarg here (VBool false) = VBool false ->
  run o h (follow id ref here) = ([], inr tt).
Proof.
  intros Hid Href Hhere. apply run_follow_none; [assumption..|].
  now rewrite Hhere.
Qed.

(** C10: the branches of [follow] go by truthiness, [id] before [ref]
    before [here]: a truthy [id] gives the single wait on [id] even
    beside a truthy [ref]; under a falsy [id], a truthy [ref] makes
    [here] irrelevant and no version-control query is made; and the empty
    string as [id] behaves as no [id] at all. *)
Theorem follow_precedence (o : oracle) (h : list event) :
  (forall (id ref : pyval) (here : option pyval),
     truthy id = true -> truthy ref = true ->
     trace o h (follow (Some id) (Some ref) here) = [Called (wait_for_pipeline id)])
  /\ (forall (id : option pyval) (ref : pyval) (here here' : option pyval),
        truthy (kwarg id VNone) = false -> truthy ref = true ->
        follow id (Some ref) here = follow id (Some ref) here'
        /\ existsb is_vcs_query (trace o h (follow id (Some ref) here)) = false)
  /\ (forall ref here : option pyval,
        follow (Some (VStr (lit ""))) ref here = follow None ref here).
Proof.
  split; [|split].
  - intros id ref here Hid _. unfold trace.
    now rewrite (run_follow_id o h (Some id) (Some ref) here Hid).
  - intros id ref here here' Hid Href. split.
    + unfold follow. cbv zeta. rewrite Hid.
      change (kwarg (Some ref) VNone) with ref. now rewrite Href.
    + unfold trace. rewrite (run_follow_ref o h id (Some ref) here Hid Href).
      destruct (o h Gitlab) as [e|g]; [reflexivity|]. cbv zeta.
      destruct (o _ (pipelines_for_ref g _ _)) as [e|pipelines]; [reflexivity|].
      destruct (list_getitem pipelines 0) as [e|first]; [reflexivity|].
      now destruct (dict_getitem first (lit "id")).
  - reflexivity.
Qed.

(** ** The theorems at work

    Each statement above that has a premise is applied here to a concrete
    world, where its premises hold by evaluation. *)

Lemma trigger_defaults_witness :
  let o := ci_up (lit "main") [pipeline_7] in
  let start :=
    trigger_agent_pipeline (VStr (lit "master")) (VStr (lit "nightly"))
      (VStr (lit "nightly-a7")) (VStr (lit "nightly")) (VBool true) in
  o [] start = inr (VInt 42)
  /\ trace o [] (trigger None None None None None)
     = [Called start; Called (wait_for_pipeline (VInt 42))].
Proof.
  intros o start. split; [reflexivity|].
  apply (trigger_defaults o [] (VInt 42)). reflexivity.
Defined.

Lemma trigger_two_calls_witness :
  let o := ci_up (lit "main") [pipeline_7] in
  let start :=
    trigger_agent_pipeline (VStr (lit "7.x")) (VStr (lit "nightly"))
      (VStr (lit "7.99.0")) (VStr (lit "beta")) (VBool false) in
  o [] start = inr (VInt 42)
  /\ trace o []
       (trigger (Some (VStr (lit "7.x"))) None (Some (VStr (lit "7.99.0")))
          (Some (VStr (lit "beta"))) (Some (VBool false)))
     = [Called start; Called (wait_for_pipeline (VInt 42))].
Proof.
  intros o start. split; [reflexivity|].
  exact (proj2 (trigger_two_calls o [] (Some (VStr (lit "7.x"))) None
                  (Some (VStr (lit "7.99.0"))) (Some (VStr (lit "beta")))
                  (Some (VBool false)))
           (VInt 42) eq_refl).
Defined.

Lemma trigger_failure_propagates_witness :
  let start :=
    trigger_agent_pipeline (VStr (lit "master")) (VStr (lit "nightly"))
      (VStr (lit "nightly-a7")) (VStr (lit "nightly")) (VBool true) in
  let e := Failure (lit "503 Service Unavailable") in
  ci_down [] start = inl e
  /\ run ci_down [] (trigger None None None None None) = ([Called start], inl e)
  /\ existsb is_wait (trace ci_down [] (trigger None None None None None)) = false.
Proof.
  intros start e. split; [reflexivity|].
  exact (trigger_failure_propagates ci_down [] None None None None None e eq_refl).
Defined.

Lemma follow_id_waits_only_witness :
  truthy (VStr (lit "123")) = true
  /\ trace ci_down [] (follow (Some (VStr (lit "123"))) (Some (VStr (lit "foo"))) None)
     = [Called (wait_for_pipeline (VStr (lit "123")))].
Proof.
  split; [reflexivity|].
  exact (proj1 (follow_id_waits_only ci_down [] (VStr (lit "123"))
                  (Some (VStr (lit "foo"))) None eq_refl)).
Defined.

Lemma follow_ref_waits_on_first_witness :
  let o := ci_up (lit "main") [pipeline_7] in
  let lookup :=
    pipelines_for_ref 0 (VStr (lit "DataDog/datadog-agent")) (VStr (lit "foo")) in
  (truthy (VStr (lit "foo")) = true
   /\ o [] Gitlab = inr 0
   /\ o [Called Gitlab] lookup = inr [pipeline_7]
   /\ pipeline_7 !! lit "id" = Some (VInt 7))
  /\ trace o [] (follow None (Some (VStr (lit "foo"))) None)
     = [Called Gitlab; Called lookup; Called (wait_for_pipeline (VInt 7))].
Proof.
  intros o lookup.
  assert (Hid : pipeline_7 !! lit "id" = Some (VInt 7)) by (vm_compute; reflexivity).
  split; [repeat split; try reflexivity; exact Hid|].
  exact (proj2 (follow_ref_waits_on_first o [] (VStr (lit "foo")) None 0 eq_refl eq_refl)
           pipeline_7 [] (VInt 7) eq_refl Hid).
Defined.

Lemma follow_here_no_pipelines_witness :
  let o := ci_up (lit "main" ++ [10]) [] in
  let query := ctx_run (lit "git rev-parse --abbrev-ref HEAD") true in
  let lookup :=
    pipelines_for_ref 0 (VStr (lit "DataDog/datadog-agent")) (VStr (lit "main")) in
  (o [] query = inr {| stdout := lit "main" ++ [10] |}
   /\ o [Called query] Gitlab = inr 0
   /\ o [Called query; Called Gitlab] lookup = inr [])
  /\ run o [] (follow None None (Some (VBool true)))
     = ([Called query; Called Gitlab; Called lookup;
         Printed (lit "No pipelines found for main")],
        inr tt).
Proof.
  intros o query lookup. split; [repeat split; reflexivity|].
  exact (proj1 (follow_here_no_pipelines o [] {| stdout := lit "main" ++ [10] |} 0
                  eq_refl eq_refl eq_refl)).
Defined.

Lemma follow_here_asks_git_witness :
  let o := ci_up (lit "main" ++ [10]) [pipeline_7] in
  let query := ctx_run (lit "git rev-parse --abbrev-ref HEAD") true in
  (o [] query = inr {| stdout := lit "main" ++ [10] |}
   /\ o [Called query] Gitlab = inr 0)
  /\ firstn 3 (trace o [] (follow None None (Some (VBool true))))
     = [Called query; Called Gitlab;
        Called (pipelines_for_ref 0 (VStr (lit "DataDog/datadog-agent"))
                  (VStr (lit "main")))].
Proof.
  intros o query. split; [split; reflexivity|].
  exact (proj2 (follow_here_asks_git o []) {| stdout := lit "main" ++ [10] |} 0
           eq_refl eq_refl).
Defined.

Lemma follow_noop_witness :
  (truthy (kwarg None VNone) = false
   /\ truthy (kwarg (Some (VStr (lit ""))) VNone) = false
   /\ kwarg (Some (VBool false)) (VBool false) = VBool false)
  /\ run ci_down [] (follow None (Some (VStr (lit ""))) (Some (VBool false)))
     = ([], inr tt).
Proof.
  split; [repeat split; reflexivity|].
  exact (follow_noop ci_down [] None (Some (VStr (lit ""))) (Some (VBool false))
           eq_refl eq_refl eq_refl).
Defined.

Lemma follow_precedence_witness :
  let o := ci_up (lit "main") [pipeline_7] in
  (truthy (VStr (lit "123")) = true /\ truthy (VStr (lit "foo")) = true
   /\ truthy (kwarg (Some (VStr (lit ""))) VNone) = false)
  /\ trace o [] (follow (Some (VStr (lit "123"))) (Some (VStr (lit "foo"))) None)
     = [Called (wait_for_pipeline (VStr (lit "123")))]
  /\ follow (Some (VStr (lit ""))) (Some (VStr (lit "foo"))) (Some (VBool true))
     = follow (Some (VStr (lit ""))) (Some (VStr (lit "foo"))) None
  /\ existsb is_vcs_query
       (trace o [] (follow (Some (VStr (lit ""))) (Some (VStr (lit "foo")))
                      (Some (VBool true))))
     = false.
Proof.
  intros o. split; [repeat split; reflexivity|]. split.
  - exact (proj1 (follow_precedence o []) (VStr (lit "123")) (VStr (lit "foo")) None
             eq_refl eq_refl).
  - exact (proj1 (proj2 (follow_precedence o [])) (Some (VStr (lit ""))) (VStr (lit "foo"))
             (Some (VBool true)) None eq_refl eq_refl).
Defined.

(** * Beyond the two happy paths

    What the handlers do on the paths above that the statements so far
    leave open: the wait of [follow --here], what [follow] never does, and
    how failures of the collaborators come out. *)

(** Case analysis on a run of [follow]: first on the branch taken, then
    on every answer the run depends on. *)
Ltac follow_branch o h id ref here :=
  let Hid := fresh "Hid" in
  let Href := fresh "Href" in
  let Hhere := fresh "Hhere" in
  destruct (truthy (kwarg id VNone)) eqn:Hid;
  [ rewrite (run_follow_id o h id ref here Hid)
  | destruct (truthy (kwarg ref VNone)) eqn:Href;
    [ rewrite (run_follow_ref o h id ref here Hid Href)
    | destruct (truthy (kwarg here (VBool false))) eqn:Hhere;
      [ rewrite (run_follow_here o h id ref here Hid Href Hhere)
      | rewrite (run_follow_none o h id ref here Hid Href Hhere) ] ] ].

Ltac by_answers :=
  cbv zeta;
  repeat match goal with
         | |- context [match ?x with _ => _ end] => destruct x
         end;
  try reflexivity.

Section FollowAlways.

Variables (o : oracle) (h : list event) (id ref here : option pyval).

(** [follow] never starts a pipeline, whatever its arguments and
    whatever it is answered. *)
Theorem follow_never_starts_pipeline :
  existsb is_start (trace o h (follow id ref here)) = false.
Proof. unfold trace. follow_branch o h id ref here; by_answers. Qed.

(** In a run of [follow] only the last event can be a wait or a print:
    everything before it is a query.  So there is at most one wait, at
    most one message, and never both. *)
Theorem follow_wait_or_print_is_last :
  existsb is_final (removelast (trace o h (follow id ref here))) = false.
Proof. unfold trace. follow_branch o h id ref here; by_answers. Qed.

(** A run of [follow] has at most four events (the query of the
    checkout, the client, the lookup, and a wait or a message), and at
    most three without [here]. *)
Theorem follow_at_most_four_events :
  (length (trace o h (follow id ref here)) <= 4)%nat
  /\ (truthy (kwarg id VNone) || truthy (kwarg ref VNone) = true ->
      (length (trace o h (follow id ref here)) <= 3)%nat).
Proof.
  unfold trace. follow_branch o h id ref here; split; intros; by_answers;
    simpl in *; try discriminate; repeat constructor.
Qed.

End FollowAlways.

(** With a falsy [id], a falsy [ref] and a truthy [here], when the
    lookup for the branch of the checkout has a first record with an
    'id', [follow] waits on that 'id' as its fourth and last call, prints
    nothing, and ends as the wait ends. *)
Theorem follow_here_waits_on_first (o : oracle) (h : list event)
    (id ref here : option pyval) (res : Result) (g : gitlab)
    (first : record) (rest : list record) (pipeline_id : pyval) :
  let query := ctx_run (lit "git rev-parse --abbrev-ref HEAD") true in
  let lookup :=
    pipelines_for_ref g (VStr (lit "DataDog/datadog-agent")) (VStr (strip (stdout res))) in
  truthy (kwarg id VNone) = false ->
  truthy (kwarg ref VNone) = false ->
  truthy (kwarg here (VBool false)) = true ->
  o h query = inr res ->
  o (h ++ [Called query]) Gitlab = inr g ->
  o ((h ++ [Called query]) ++ [Called Gitlab]) lookup = inr (first :: rest) ->
  first !! lit "id" = Some pipeline_id ->
  run o h (follow id ref here)
  = ([Called query; Called Gitlab; Called lookup; Called (wait_for_pipeline pipeline_id)],
     ending (o (h ++ [Called query; Called Gitlab; Called lookup])
               (wait_for_pipeline pipeline_id))).
Proof.
  intros query lookup Hid Href Hhere Hgit Hg Hl Hpid.
  rewrite (run_follow_here o h id ref here Hid Href Hhere).
  unfold git_branch, project. fold query. rewrite Hgit. cbv zeta. rewrite Hg.
  fold lookup. rewrite Hl.
  now rewrite (dict_getitem_some first (lit "id") pipeline_id Hpid).
Qed.

Lemma dict_getitem_none {A : Type} (d : gmap pystr A) (k : pystr) :
  d !! k = None -> dict_getitem d k = inl (KeyError k).
Proof. intros H. unfold dict_getitem. now rewrite H. Qed.

(** A first record without an 'id' makes [follow] raise [KeyError] for
    'id' right after the lookup, under [ref] as under [here]: there is no
    wait and no message. *)
Theorem follow_record_without_id (o : oracle) (h : list event)
    (first : record) (rest : list record) :
  first !! lit "id" = None ->
  (forall (ref : pyval) (here : option pyval) (g : gitlab),
     let lookup := pipelines_for_ref g (VStr (lit "DataDog/datadog-agent")) ref in
     truthy ref = true ->
     o h Gitlab = inr g ->
     o (h ++ [Called Gitlab]) lookup = inr (first :: rest) ->
     run o h (follow None (Some ref) here)
     = ([Called Gitlab; Called lookup], inl (KeyError (lit "id"))))
  /\ (forall (res : Result) (g : gitlab),
        let query := ctx_run (lit "git rev-parse --abbrev-ref HEAD") true in
        let lookup :=
          pipelines_for_ref g (VStr (lit "DataDog/datadog-agent"))
            (VStr (strip (stdout res))) in
        o h query = inr res ->
        o (h ++ [Called query]) Gitlab = inr g ->
        o ((h ++ [Called query]) ++ [Called Gitlab]) lookup = inr (first :: rest) ->
        run o h (follow None None (Some (VBool true)))
        = ([Called query; Called Gitlab; Called lookup], inl (KeyError (lit "id")))).
Proof.
  intros Hnone.
  assert (Hk : dict_getitem first (lit "id") = inl (KeyError (lit "id")))
    by exact (dict_getitem_none first (lit "id") Hnone).
  split.
  - intros ref here g lookup Href Hg Hl.
    rewrite (run_follow_ref o h None (Some ref) here eq_refl Href), Hg.
    unfold project. cbv zeta. simpl kwarg. fold lookup.
    now rewrite Hl, list_getitem_first, Hk.
  - intros res g query lookup Hgit Hg Hl.
    rewrite (run_follow_here o h None None (Some (VBool true)) eq_refl eq_refl eq_refl).
    unfold git_branch, project. fold query. rewrite Hgit. cbv zeta. rewrite Hg.
    fold lookup. now rewrite Hl, Hk.
Qed.

(** When the query of the checkout raises under [here], [follow] ends
    with that exception and has called nothing else: no client is built,
    no lookup is made, nothing is waited for or printed. *)
Theorem follow_here_git_failure (o : oracle) (h : list event)
    (id ref here : option pyval) (e : exn) :
  let query := ctx_run (lit "git rev-parse --abbrev-ref HEAD") true in
  truthy (kwarg id VNone) = false ->
  truthy (kwarg ref VNone) = false ->
  truthy (kwarg here (VBool false)) = true ->
  o h query = inl e ->
  run o h (follow id ref here) = ([Called query], inl e).
Proof.
  intros query Hid Href Hhere Hgit.
  rewrite (run_follow_here o h id ref here Hid Href Hhere).
  unfold git_branch. fold query. now rewrite Hgit.
Qed.



(** Solves [exists t c, l = t ++ [Called c] /\ o (h ++ t) c = r] for a
    trace [l] of known length, from the answers in the context. *)
Ltac last_call :=
  rewrite <- ?app_assoc in *; simpl app in *;
  let close :=
    eexists; split; [reflexivity | rewrite ?app_nil_r; simpl app; eassumption] in
  first [ exists (@nil event); close | eexists [_]; close
        | eexists [_; _]; close | eexists [_; _; _]; close ].

Ltac by_answers_eqn :=
  cbv zeta;
  repeat match goal with
         | |- context [match ?x with _ => _ end] => destruct x eqn:?
         end.


(** When [follow] returns normally it has done one of three things:
    nothing at all, all three arguments being falsy; or waited, as its
    last call, for a pipeline until the wait returned; or printed its
    message last, which happens only on the [here] path. *)
Theorem follow_returns_only_after (o : oracle) (h : list event)
    (id ref here : option pyval) :
  result o h (follow id ref here) = inr tt ->
  (trace o h (follow id ref here) = []
   /\ truthy (kwarg id VNone) = false /\ truthy (kwarg ref VNone) = false
   /\ truthy (kwarg here (VBool false)) = false)
  \/ (exists (t : list event) (pipeline_id v : pyval),
        trace o h (follow id ref here) = t ++ [Called (wait_for_pipeline pipeline_id)]
        /\ o (h ++ t) (wait_for_pipeline pipeline_id) = inr v)
  \/ (exists (t : list event) (s : pystr),
        trace o h (follow id ref here) = t ++ [Printed s]
        /\ truthy (kwarg id VNone) = false /\ truthy (kwarg ref VNone) = false
        /\ truthy (kwarg here (VBool false)) = true).
Proof.
  unfold result, trace. follow_branch o h id ref here; unfold ending;
    by_answers_eqn; simpl; intros He; try discriminate He.
  all: try (left; now repeat split).
  all: try (right; right; eexists [_; _; _], _; now repeat split).
  all: right; left; rewrite <- ?app_assoc in *; simpl app in *.
  - exists [], (kwarg id VNone). eexists. split; [reflexivity|].
    rewrite app_nil_r. eassumption.
  - eexists [_; _], _, _. split; [reflexivity | eassumption].
  - eexists [_; _; _], _, _. split; [reflexivity | eassumption].
Qed.

Section TriggerEnds.

Variables (o : oracle) (h : list event).
Variables ref release_version_6 release_version_7 repo_branch
          windows_update_latest : option pyval.

Abbreviation start' :=
  (start_call ref release_version_6 release_version_7 repo_branch windows_update_latest).
Abbreviation task' :=
  (trigger ref release_version_6 release_version_7 repo_branch windows_update_latest).

(** [trigger] raises nothing of its own: an exception it ends with was
    raised by its last call, the start or the wait, and is passed on as it
    is. *)
Theorem trigger_raises_only (e : exn) :
  result o h task' = inl e ->
  exists (t : list event) (c : call),
    trace o h task' = t ++ [Called c] /\ o (h ++ t) c = inl e.
Proof.
  unfold result, trace. rewrite run_trigger. unfold ending.
  by_answers_eqn; simpl; intros He; try discriminate He; injection He as <-;
    last_call.
Qed.

(** [trigger] returns normally exactly when start-pipeline returned an
    identifier and the wait on that identifier returned. *)
Theorem trigger_returns_iff :
  result o h task' = inr tt
  <-> exists pipeline_id v : pyval,
        o h start' = inr pipeline_id
        /\ o (h ++ [Called start']) (wait_for_pipeline pipeline_id) = inr v.
Proof.
  unfold result. rewrite run_trigger. unfold ending. split.
  - by_answers_eqn; simpl; intros He; try discriminate He. eauto.
  - intros (pid & v & Hs & Hw). now rewrite Hs, Hw.
Qed.

(** After a start that returned a truthy identifier, [trigger] goes on as
    [follow] called with that identifier would, whatever [ref] and [here]
    that [follow] is given. *)
Theorem trigger_as_start_then_follow (pipeline_id : pyval) (ref' here' : option pyval) :
  o h start' = inr pipeline_id ->
  truthy pipeline_id = true ->
  run o h task'
  = (Called start' :: trace o (h ++ [Called start']) (follow (Some pipeline_id) ref' here'),
     result o (h ++ [Called start']) (follow (Some pipeline_id) ref' here')).
Proof.
  intros Hs Hp. unfold trace, result.
  rewrite run_trigger, Hs.
  now rewrite (run_follow_id o (h ++ [Called start']) (Some pipeline_id) ref' here' Hp).
Qed.

End TriggerEnds.

(** ** The ref of [follow --here] *)

Lemma lstrip_length (s : pystr) : (length (lstrip s) <= length s)%nat.
Proof.
  destruct (lstrip_suffix s) as [p Hp].
  rewrite Hp at 2. rewrite length_app. lia.
Qed.

Lemma lstrip_same_length (s : pystr) : length (lstrip s) = length s -> lstrip s = s.
Proof.
  intros Hlen. destruct (lstrip_suffix s) as [p Hp].
  destruct p as [|c p]; [now symmetry|].
  apply (f_equal (@length N)) in Hp. rewrite length_app, Hlen in Hp.
  simpl in Hp. lia.
Qed.

(** A string that [strip] leaves alone has no whitespace to lose at
    either end. *)
Lemma strip_same_ends (s : pystr) :
  strip s = s -> lstrip s = s /\ lstrip (rev s) = rev s.
Proof.
  intros Hs. assert (Hlen : length (strip s) = length s) by now rewrite Hs.
  unfold strip, rstrip in Hlen. rewrite length_rev in Hlen.
  pose proof (lstrip_length (rev (lstrip s))) as H1. rewrite length_rev in H1.
  pose proof (lstrip_length s) as H2.
  assert (Hl : lstrip s = s).
  { apply lstrip_same_length. apply Nat.le_antisymm; [exact H2|].
    rewrite <- Hlen. exact H1. }
  split; [exact Hl|]. apply lstrip_same_length.
  rewrite Hl in Hlen. now rewrite length_rev.
Qed.

(** Whitespace after a string that [strip] leaves alone is all that
    [strip] removes. *)
Lemma strip_trailing (s ws : pystr) :
  strip s = s -> forallb isspace ws = true -> strip (s ++ ws) = s.
Proof.
  intros Hs Hws. destruct (strip_same_ends s Hs) as [Hl Hr].
  unfold strip. destruct s as [|c s].
  - simpl app. rewrite <- (app_nil_r ws), lstrip_spaces by exact Hws. reflexivity.
  - assert (Hc : isspace c = false) by exact (lstrip_head _ _ _ Hl).
    change ((c :: s) ++ ws) with (c :: s ++ ws). simpl lstrip. rewrite Hc.
    change (c :: s ++ ws) with ((c :: s) ++ ws).
    rewrite rstrip_spaces by exact Hws. unfold rstrip.
    now rewrite Hr, rev_involutive.
Qed.

(** When the checkout prints a branch name followed by whitespace only
    (the newline of git), the lookup of [follow --here] is made for that
    very name.  The name may be any string that [strip] leaves alone; for
    the empty name, that is for blank output, the lookup is made for the
    empty ref. *)
Theorem follow_here_looks_up_branch (o : oracle) (h : list event)
    (id ref here : option pyval) (branch ws : pystr) (g : gitlab) :
  let query := ctx_run (lit "git rev-parse --abbrev-ref HEAD") true in
  truthy (kwarg id VNone) = false ->
  truthy (kwarg ref VNone) = false ->
  truthy (kwarg here (VBool false)) = true ->
  strip branch = branch ->
  forallb isspace ws = true ->
  o h query = inr {| stdout := branch ++ ws |} ->
  o (h ++ [Called query]) Gitlab = inr g ->
  firstn 3 (trace o h (follow id ref here))
  = [Called query; Called Gitlab;
     Called (pipelines_for_ref g (VStr (lit "DataDog/datadog-agent")) (VStr branch))].
Proof.
  intros query Hid Href Hhere Hb Hws Hgit Hg. unfold trace.
  rewrite (run_follow_here o h id ref here Hid Href Hhere).
  unfold git_branch, project. fold query. rewrite Hgit. cbv zeta. rewrite Hg.
  simpl stdout. rewrite (strip_trailing branch ws Hb Hws).
  by_answers.
Qed.

(** Under [here], once the checkout has named a branch, [follow] goes on
    as [follow] called with that branch as [ref] would, provided the
    name is not empty and the lookup does not come back empty. *)
Theorem follow_here_as_ref_after_git (o : oracle) (h : list event)
    (id ref here here' : option pyval) (res : Result) :
  let query := ctx_run (lit "git rev-parse --abbrev-ref HEAD") true in
  let branch := strip (stdout res) in
  let by_ref := follow None (Some (VStr branch)) here' in
  truthy (kwarg id VNone) = false ->
  truthy (kwarg ref VNone) = false ->
  truthy (kwarg here (VBool false)) = true ->
  o h query = inr res ->
  branch <> [] ->
  (forall g : gitlab,
     o (h ++ [Called query]) Gitlab = inr g ->
     o ((h ++ [Called query]) ++ [Called Gitlab])
       (pipelines_for_ref g (VStr (lit "DataDog/datadog-agent")) (VStr branch))
     <> inr []) ->
  run o h (follow id ref here)
  = (Called query :: trace o (h ++ [Called query]) by_ref,
     result o (h ++ [Called query]) by_ref).
Proof.
  intros query branch by_ref Hid Href Hhere Hgit Hb Hne.
  assert (Ht : truthy (kwarg (Some (VStr branch)) VNone) = true)
    by (simpl; now destruct branch).
  unfold trace, result, by_ref.
  rewrite (run_follow_here o h id ref here Hid Href Hhere).
  rewrite (run_follow_ref o (h ++ [Called query]) None (Some (VStr branch)) here' eq_refl Ht).
  unfold git_branch, project. fold query. rewrite Hgit. cbv zeta. fold branch.
  simpl kwarg.
  destruct (o (h ++ [Called query]) Gitlab) as [e|g] eqn:Hg; [reflexivity|].
  specialize (Hne g eq_refl).
  destruct (o ((h ++ [Called query]) ++ [Called Gitlab]) _) as [e|[|first rest]];
    [reflexivity | now destruct Hne |].
  rewrite list_getitem_first.
  destruct (dict_getitem first (lit "id")) as [e|pid]; [reflexivity|].
  simpl. rewrite <- !app_assoc. reflexivity.
Qed.

(** ** What a wait or a message of [follow] means *)

Lemma list_getitem_first_returns {A : Type} (l : list A) (x : A) :
  list_getitem l 0 = inr x -> exists rest, l = x :: rest.
Proof.
  destruct l as [|y l]; [discriminate|].
  intros [= <-]. now exists l.
Qed.

Lemma dict_getitem_returns {A : Type} (d : gmap pystr A) (k : pystr) (x : A) :
  dict_getitem d k = inr x -> d !! k = Some x.
Proof.
  unfold dict_getitem. destruct (d !! k); [now intros [= <-] | discriminate].
Qed.

(** [follow] waits for no other pipeline than the one asked for: a wait
    in its run is on the truthy [id] it was given, or on the 'id' of the
    first record of the lookup made just before. *)
Theorem follow_waits_only_on (o : oracle) (h : list event)
    (id ref here : option pyval) (pipeline_id : pyval) :
  In (Called (wait_for_pipeline pipeline_id)) (trace o h (follow id ref here)) ->
  (truthy (kwarg id VNone) = true /\ pipeline_id = kwarg id VNone)
  \/ exists (t : list event) (g : gitlab) (ref' : pyval)
            (first : record) (rest : list record),
       let lookup := pipelines_for_ref g (VStr (lit "DataDog/datadog-agent")) ref' in
       trace o h (follow id ref here)
       = t ++ [Called lookup; Called (wait_for_pipeline pipeline_id)]
       /\ o (h ++ t) lookup = inr (first :: rest)
       /\ first !! lit "id" = Some pipeline_id.
Proof.
  unfold trace. follow_branch o h id ref here; unfold project, git_branch;
    by_answers_eqn; simpl; intros Hin;
    repeat match type of Hin with
           | _ \/ _ => destruct Hin as [Hin|Hin]
           end;
    try discriminate Hin; try contradiction; injection Hin as <-.
  - left. now split.
  - right.
    match goal with
    | H : list_getitem _ 0 = inr _ |- _ =>
      destruct (list_getitem_first_returns _ _ H) as [rest ->]
    end.
    eexists [_], _, _, _, _. cbv zeta. split; [reflexivity|]. split; [eassumption|].
    eapply dict_getitem_returns. eassumption.
  - right. rewrite <- ?app_assoc in *. simpl app in *.
    eexists [_; _], _, _, _, _. cbv zeta. split; [reflexivity|].
    split; [eassumption|]. eapply dict_getitem_returns. eassumption.
Qed.


(** ** These theorems at work *)

Lemma follow_at_most_four_events_witness :
  let o := ci_up (lit "main") [pipeline_7] in
  let by_ref := follow None (Some (VStr (lit "foo"))) (Some (VBool true)) in
  truthy (kwarg None VNone) || truthy (kwarg (Some (VStr (lit "foo"))) VNone) = true
  /\ (length (trace o [] by_ref) <= 3)%nat.
Proof.
  intros o by_ref. split; [reflexivity|].
  exact (proj2 (follow_at_most_four_events o [] None (Some (VStr (lit "foo")))
                  (Some (VBool true))) eq_refl).
Defined.

Lemma follow_here_waits_on_first_witness :
  let o := ci_up (lit "main" ++ [10]) [pipeline_7] in
  let query := ctx_run (lit "git rev-parse --abbrev-ref HEAD") true in
  let lookup :=
    pipelines_for_ref 0 (VStr (lit "DataDog/datadog-agent")) (VStr (lit "main")) in
  (truthy (kwarg (Some (VStr (lit ""))) VNone) = false
   /\ truthy (kwarg None VNone) = false
   /\ truthy (kwarg (Some (VInt 1)) (VBool false)) = true
   /\ o [] query = inr {| stdout := lit "main" ++ [10] |}
   /\ o [Called query] Gitlab = inr 0
   /\ o [Called query; Called Gitlab] lookup = inr [pipeline_7]
   /\ pipeline_7 !! lit "id" = Some (VInt 7))
  /\ run o [] (follow (Some (VStr (lit ""))) None (Some (VInt 1)))
     = ([Called query; Called Gitlab; Called lookup; Called (wait_for_pipeline (VInt 7))],
        inr tt).
Proof.
  intros o query lookup.
  assert (Hid : pipeline_7 !! lit "id" = Some (VInt 7)) by (vm_compute; reflexivity).
  split; [repeat split; try reflexivity; exact Hid|].
  exact (follow_here_waits_on_first o [] (Some (VStr (lit ""))) None (Some (VInt 1))
           {| stdout := lit "main" ++ [10] |} 0 pipeline_7 [] (VInt 7)
           eq_refl eq_refl eq_refl eq_refl eq_refl eq_refl Hid).
Defined.

Lemma follow_record_without_id_witness :
  let o := ci_up (lit "main") [∅] in
  let lookup :=
    pipelines_for_ref 0 (VStr (lit "DataDog/datadog-agent")) (VStr (lit "foo")) in
  ((∅ : record) !! lit "id" = None
   /\ truthy (VStr (lit "foo")) = true
   /\ o [] Gitlab = inr 0
   /\ o [Called Gitlab] lookup = inr [∅])
  /\ run o [] (follow None (Some (VStr (lit "foo"))) None)
     = ([Called Gitlab; Called lookup], inl (KeyError (lit "id"))).
Proof.
  intros o lookup.
  assert (Hnone : (∅ : record) !! lit "id" = None) by (vm_compute; reflexivity).
  split; [repeat split; try reflexivity; exact Hnone|].
  exact (proj1 (follow_record_without_id o [] ∅ [] Hnone) (VStr (lit "foo")) None 0
           eq_refl eq_refl eq_refl).
Defined.

Lemma follow_here_git_failure_witness :
  let query := ctx_run (lit "git rev-parse --abbrev-ref HEAD") true in
  let e := Failure (lit "503 Service Unavailable") in
  (truthy (kwarg None VNone) = false
   /\ truthy (kwarg (Some (VBool true)) (VBool false)) = true
   /\ ci_failing is_vcs_query (lit "main") [pipeline_7] [] query = inl e)
  /\ run (ci_failing is_vcs_query (lit "main") [pipeline_7]) []
       (follow None None (Some (VBool true)))
     = ([Called query], inl e).
Proof.
  intros query e. split; [repeat split; reflexivity|].
  exact (follow_here_git_failure (ci_failing is_vcs_query (lit "main") [pipeline_7]) []
           None None (Some (VBool true)) e eq_refl eq_refl eq_refl eq_refl).
Defined.


Lemma follow_returns_only_after_witness :
  let o := ci_up (lit "main") [pipeline_7] in
  let by_ref := follow None (Some (VStr (lit "foo"))) None in
  result o [] by_ref = inr tt
  /\ ((trace o [] by_ref = []
       /\ truthy (kwarg None VNone) = false
       /\ truthy (kwarg (Some (VStr (lit "foo"))) VNone) = false
       /\ truthy (kwarg None (VBool false)) = false)
      \/ (exists (t : list event) (pipeline_id v : pyval),
            trace o [] by_ref = t ++ [Called (wait_for_pipeline pipeline_id)]
            /\ o ([] ++ t) (wait_for_pipeline pipeline_id) = inr v)
      \/ (exists (t : list event) (s : pystr),
            trace o [] by_ref = t ++ [Printed s]
            /\ truthy (kwarg None VNone) = false
            /\ truthy (kwarg (Some (VStr (lit "foo"))) VNone) = false
            /\ truthy (kwarg None (VBool false)) = true)).
Proof.
  intros o by_ref.
  assert (Hr : result o [] by_ref = inr tt) by (vm_compute; reflexivity).
  split; [exact Hr|].
  exact (follow_returns_only_after o [] None (Some (VStr (lit "foo"))) None Hr).
Defined.

Lemma trigger_raises_only_witness :
  let o := ci_failing is_wait (lit "main") [pipeline_7] in
  let task := trigger None None None None None in
  let e := Failure (lit "503 Service Unavailable") in
  result o [] task = inl e
  /\ exists (t : list event) (c : call),
       trace o [] task = t ++ [Called c] /\ o ([] ++ t) c = inl e.
Proof.
  intros o task e.
  assert (He : result o [] task = inl e) by (vm_compute; reflexivity).
  split; [exact He|].
  exact (trigger_raises_only o [] None None None None None e He).
Defined.

Lemma trigger_returns_iff_witness :
  let o := ci_up (lit "main") [pipeline_7] in
  let start := start_call None None None None None in
  (o [] start = inr (VInt 42)
   /\ o [Called start] (wait_for_pipeline (VInt 42)) = inr VNone)
  /\ result o [] (trigger None None None None None) = inr tt.
Proof.
  intros o start.
  assert (H : o [] start = inr (VInt 42)
              /\ o ([] ++ [Called start]) (wait_for_pipeline (VInt 42)) = inr VNone)
    by (split; reflexivity).
  split; [exact H|].
  exact (proj2 (trigger_returns_iff o [] None None None None None)
           (ex_intro _ (VInt 42) (ex_intro _ VNone H))).
Defined.

Lemma trigger_as_start_then_follow_witness :
  let o := ci_up (lit "main") [pipeline_7] in
  let start := start_call None None None None None in
  (o [] start = inr (VInt 42) /\ truthy (VInt 42) = true)
  /\ run o [] (trigger None None None None None)
     = (Called start :: trace o [Called start] (follow (Some (VInt 42)) None None),
        result o [Called start] (follow (Some (VInt 42)) None None)).
Proof.
  intros o start. split; [split; reflexivity|].
  exact (trigger_as_start_then_follow o [] None None None None None (VInt 42) None None
           eq_refl eq_refl).
Defined.

Lemma follow_here_looks_up_branch_witness :
  let o := ci_up (lit "main" ++ [10]) [pipeline_7] in
  let query := ctx_run (lit "git rev-parse --abbrev-ref HEAD") true in
  (truthy (kwarg None VNone) = false
   /\ truthy (kwarg (Some (VBool true)) (VBool false)) = true
   /\ strip (lit "main") = lit "main"
   /\ forallb isspace [10] = true
   /\ o [] query = inr {| stdout := lit "main" ++ [10] |}
   /\ o [Called query] Gitlab = inr 0)
  /\ firstn 3 (trace o [] (follow None None (Some (VBool true))))
     = [Called query; Called Gitlab;
        Called (pipelines_for_ref 0 (VStr (lit "DataDog/datadog-agent"))
                  (VStr (lit "main")))].
Proof.
  intros o query. split; [repeat split; reflexivity|].
  exact (follow_here_looks_up_branch o [] None None (Some (VBool true)) (lit "main") [10] 0
           eq_refl eq_refl eq_refl eq_refl eq_refl eq_refl eq_refl).
Defined.

Lemma follow_here_as_ref_after_git_witness :
  let o := ci_up (lit "main" ++ [10]) [pipeline_7] in
  let query := ctx_run (lit "git rev-parse --abbrev-ref HEAD") true in
  let by_ref := follow None (Some (VStr (lit "main"))) None in
  (truthy (kwarg None VNone) = false
   /\ truthy (kwarg (Some (VBool true)) (VBool false)) = true
   /\ o [] query = inr {| stdout := lit "main" ++ [10] |}
   /\ strip (lit "main" ++ [10]) <> []
   /\ forall g : gitlab,
        o [Called query] Gitlab = inr g ->
        o [Called query; Called Gitlab]
          (pipelines_for_ref g (VStr (lit "DataDog/datadog-agent")) (VStr (lit "main")))
        <> inr [])
  /\ run o [] (follow None None (Some (VBool true)))
     = (Called query :: trace o [Called query] by_ref, result o [Called query] by_ref).
Proof.
  intros o query by_ref.
  assert (Hb : strip (lit "main" ++ [10]) <> []) by (vm_compute; discriminate).
  assert (Hne : forall g : gitlab,
             o [Called query] Gitlab = inr g ->
             o [Called query; Called Gitlab]
               (pipelines_for_ref g (VStr (lit "DataDog/datadog-agent"))
                  (VStr (lit "main")))
             <> inr []) by (intros g _; discriminate).
  split; [repeat split; try reflexivity; assumption|].
  exact (follow_here_as_ref_after_git o [] None None (Some (VBool true)) None
           {| stdout := lit "main" ++ [10] |} eq_refl eq_refl eq_refl eq_refl Hb Hne).
Defined.

Lemma follow_waits_only_on_witness :
  let o := ci_up (lit "main") [pipeline_7] in
  let by_ref := follow None (Some (VStr (lit "foo"))) None in
  In (Called (wait_for_pipeline (VInt 7))) (trace o [] by_ref)
  /\ ((truthy (kwarg None VNone) = true /\ VInt 7 = kwarg None VNone)
      \/ exists (t : list event) (g : gitlab) (ref' : pyval)
                (first : record) (rest : list record),
           let lookup := pipelines_for_ref g (VStr (lit "DataDog/datadog-agent")) ref' in
           trace o [] by_ref = t ++ [Called lookup; Called (wait_for_pipeline (VInt 7))]
           /\ o ([] ++ t) lookup = inr (first :: rest)
           /\ first !! lit "id" = Some (VInt 7)).
Proof.
  intros o by_ref.
  assert (Hin : In (Called (wait_for_pipeline (VInt 7))) (trace o [] by_ref))
    by (vm_compute; tauto).
  split; [exact Hin|].
  exact (follow_waits_only_on o [] None (Some (VStr (lit "foo"))) None (VInt 7) Hin).
Defined.

